(** * color-converter: fractional RGB colours and 24 bit HTML colour codes

    A shallow embedding of [color-converter.cpp]: the hexadecimal encoder
    [ToHex], the decoder [HexToDec] (the lambda inside [HTMLToES]), the two
    colour conversions [ESToHTML] and [HTMLToES], the two file
    conversions [ESFileToHTML] and [HTMLFileToES], [PrintHelp] and [main].

    Conventions of the embedding:
    - [int] is [Z]; the values the converters compute stay far inside the
      32 bit range (see [HexToDec_pair_range]), except for the conversion
      from [double] to [int], which is modelled as partial;
    - [double] is IEEE 754 binary64, through the executable specification of
      the Standard Library ([SpecFloat], precision 53, [emax] 1024);
    - [std::string] is [string]; an access the C++ standard leaves undefined
      or that throws is [None];
    - [std::cout] is the list of the values inserted into it, in order. *)

From Stdlib Require Import ZArith List String Ascii Bool Lia.
From Stdlib Require Import Floats.SpecFloat.
From Equations Require Import Equations.
Import ListNotations.

Local Open Scope string_scope.
Local Open Scope Z_scope.

(** ** A small error monad: [None] is undefined behaviour or an exception *)

Definition bind {A B : Type} (m : option A) (k : A -> option B) : option B :=
  match m with
  | Some a => k a
  | None => None
  end.

Notation "x <- m ;; k" := (bind m (fun x => k))
  (at level 61, m at next level, right associativity).

(** ** IEEE 754 binary64 *)

Module Double.

Definition t := spec_float.

Definition prec : Z := 53.
Definition emax : Z := 1024.

(** Conversion [int -> double]; exact for every 32 bit integer. *)
Definition of_int (n : Z) : t := binary_normalize prec emax n 0 false.

Definition mul : t -> t -> t := SFmul prec emax.
Definition div : t -> t -> t := SFdiv prec emax.
Definition sub : t -> t -> t := SFsub prec emax.
Definition leb : t -> t -> bool := SFleb.
Definition ltb : t -> t -> bool := SFltb.

Definition zero : t := S754_zero false.
Definition one : t := of_int 1.
Definition half : t := div (of_int 1) (of_int 2).

Definition INT_MIN : Z := -2147483648.
Definition INT_MAX : Z := 2147483647.

(** Conversion [double -> int]: the fractional part is discarded
    (truncation toward zero).  The behaviour is undefined when the
    truncated value does not fit in an [int], which includes the
    infinities and NaN. *)
Definition to_int (x : t) : option Z :=
  match x with
  | S754_zero _ => Some 0
  | S754_finite s m e =>
      let magnitude :=
        match e with
        | Z0 => Zpos m
        | Zpos _ => Z.shiftl (Zpos m) e
        | Zneg p => Z.shiftr (Zpos m) (Zpos p)
        end in
      let v := if s then - magnitude else magnitude in
      if (INT_MIN <=? v) && (v <=? INT_MAX) then Some v else None
  | S754_infinity _ => None
  | S754_nan => None
  end.

(** [0.0 <= x <= 1.0] *)
Definition in_unit_interval (x : t) : bool := leb zero x && leb x one.

End Double.

(** ** The operations of [std::string] and [std::vector] the program uses *)

Definition quote_char : ascii := "034"%char.
Definition newline_char : ascii := "010"%char.
Definition NUL : ascii := "000"%char.

(** The numeric value of a [char].  Whether [char] is signed does not matter
    to the program: every bound it compares a character with is below 128. *)
Definition char_code (c : ascii) : Z := Z.of_N (N_of_ascii c).

(** [s[pos]] on a [const std::string]: the character at [pos], the null
    character at [pos == s.size()], undefined beyond. *)
Fixpoint string_at (s : string) (pos : nat) : option ascii :=
  match s, pos with
  | EmptyString, O => Some NUL
  | EmptyString, S _ => None
  | String c _, O => Some c
  | String _ rest, S pos' => string_at rest pos'
  end.

(** The first [n] characters of [s], or all of [s] when it is shorter. *)
Fixpoint take (n : nat) (s : string) : string :=
  match n, s with
  | O, _ => EmptyString
  | S _, EmptyString => EmptyString
  | S n', String c rest => String c (take n' rest)
  end.

(** [s.substr(pos, n)]: throws [std::out_of_range] when [pos > s.size()]. *)
Fixpoint substr (s : string) (pos n : nat) : option string :=
  match pos, s with
  | O, _ => Some (take n s)
  | S _, EmptyString => None
  | S pos', String _ rest => substr rest pos' n
  end.

(** [v[i]] on a [std::vector]: undefined outside [0 .. v.size() - 1]. *)
Definition vector_at {A : Type} (v : list A) (i : Z) : option A :=
  if i <? 0 then None else nth_error v (Z.to_nat i).

(** ** [ToHex] *)

Definition DecToHex : list ascii :=
  ["0"; "1"; "2"; "3"; "4"; "5"; "6"; "7";
   "8"; "9"; "A"; "B"; "C"; "D"; "E"; "F"]%char.

(** [/] and [%] on [int] truncate toward zero: [Z.quot] and [Z.rem]. *)
Equations? ToHex (val : Z) : option string by wf (Z.to_nat val) lt :=
  ToHex val with Z_le_gt_dec 16 val => {
    | left _ =>
        hi <- vector_at DecToHex (Z.quot val 16) ;;
        lo <- ToHex (Z.rem val 16) ;;
        Some (String hi lo)
    | right _ =>
        c <- vector_at DecToHex val ;;
        Some (String c EmptyString) }.
Proof.
  pose proof (Z.rem_bound_pos val 16). lia.
Qed.

(** ** Loops *)

(** A [for] loop over the elements of [l], threading the loop state and
    stopping at the first undefined step. *)
Fixpoint for_each {A S : Type} (l : list A) (body : S -> A -> option S)
    (s : S) : option S :=
  match l with
  | [] => Some s
  | x :: rest => s' <- body s x ;; for_each rest body s'
  end.

(** ** [DataNode]

    [shared/DataNode.h] and [shared/DataFile.h] are not part of the sources.
    A node is modelled by what the converter observes of it: its tokens
    ([Size], [Token]) and the number [Value] reads at a position.  A file is
    the list of its top-level nodes.  The program reads [Token(1)] and
    [Token(2)] only after its test on [Size]; a token past the end reads as
    the empty string here. *)

Record DataNode : Type := mkDataNode {
  Tokens : list string;
  Value : nat -> Double.t
}.

Definition Size (node : DataNode) : nat := List.length (Tokens node).
Definition Token (node : DataNode) (index : nat) : string :=
  nth index (Tokens node) EmptyString.

(** ** [std::cout]: the values inserted into the stream *)

Inductive output : Type :=
| Str (s : string)
| Chr (c : ascii)
| Num (d : Double.t).

(** ** [ESToHTML] *)

Definition ESToHTML (node : DataNode) (index : nat) : option string :=
  for_each [0; 1; 2]%nat
    (fun result i =>
       val <- Double.to_int
                (Double.mul (Value node (index + i)) (Double.of_int 255)) ;;
       let val := Z.min 255 val in
       let val := Z.max 0 val in
       digits <- ToHex val ;;
       Some (result ++ digits)%string)
    "#".

(** ** [HTMLToES] and its local [HexToDec] *)

Definition converter : list (ascii * ascii) :=
  [("0", "9"); ("A", "F"); ("a", "f")]%char.

(** The inner loop of [HexToDec]: one character against every range. *)
Definition add_digit (c : ascii) (multiplier result : Z) : Z :=
  fold_left
    (fun result bounds =>
       if (char_code (fst bounds) <=? char_code c)
          && (char_code c <=? char_code (snd bounds))
       then result + (char_code c - char_code (fst bounds)) * multiplier
       else result)
    converter result.

(** The outer loop runs from the last character to the first; its state is
    [(multiplier, result)]. *)
Definition HexToDec (input : string) : Z :=
  snd (fold_left
         (fun state c =>
            let '(multiplier, result) := state in
            (multiplier * 16, add_digit c multiplier result))
         (rev (list_ascii_of_string input)) (1, 0)).

(** [push_back] of the decoded integer, converted to [double], followed by
    [result.back() /= 255]. *)
Definition HTMLToES (hex : string) : option (list Double.t) :=
  first <- string_at hex 0 ;;
  if negb (Ascii.eqb first "#") then Some []
  else if (String.length hex <? 7)%nat then Some []
  else
    for_each [1; 3; 5]%nat
      (fun result i =>
         pair <- substr hex i 2 ;;
         Some (result ++ [Double.div (Double.of_int (HexToDec pair))
                                     (Double.of_int 255)])%list)
      [].

(** ** [ESFileToHTML] and [HTMLFileToES] *)

(** Each function is a loop that fills [results] followed by a loop that
    prints them. *)

Definition ESFileToHTML_read (file : list DataNode)
    (results : list (string * string)) : option (list (string * string)) :=
  for_each file
    (fun results node =>
       if (Token node 0 =? "color")%string && (5 <=? Size node)%nat
       then html <- ESToHTML node 2 ;;
            Some (results ++ [(Token node 1, html)])%list
       else Some results)
    results.

Definition ESFileToHTML_print (results : list (string * string))
    : list output :=
  flat_map
    (fun it : string * string =>
       [Str (String quote_char EmptyString); Str (fst it);
        Str (String quote_char " "); Str (snd it); Chr newline_char])
    results.

Definition ESFileToHTML (file : list DataNode) : option (list output) :=
  results <- ESFileToHTML_read file [] ;;
  Some (ESFileToHTML_print results).

Definition HTMLFileToES_read (file : list DataNode)
    (results : list (string * list Double.t))
    : option (list (string * list Double.t)) :=
  for_each file
    (fun results node =>
       if (Token node 0 =? "color")%string && (3 <=? Size node)%nat
       then es <- HTMLToES (Token node 2) ;;
            Some (results ++ [(Token node 1, es)])%list
       else Some results)
    results.

Definition HTMLFileToES_print (results : list (string * list Double.t))
    : list output :=
  flat_map
    (fun it : string * list Double.t =>
       ([Str "color"; Chr quote_char; Str (fst it); Chr quote_char]
        ++ flat_map (fun val => [Chr " "%char; Num val]) (snd it)
        ++ [Chr newline_char])%list)
    results.

Definition HTMLFileToES (file : list DataNode) : option (list output) :=
  results <- HTMLFileToES_read file [] ;;
  Some (HTMLFileToES_print results).

(** ** Concrete nodes *)

(** A node made of channel values only; positions past the end read as
    [0]. *)
Definition channels (values : list Double.t) : DataNode :=
  mkDataNode [] (fun i => nth i values Double.zero).

(** A [color] record of a file: the tokens, and the numbers read from the
    positions after the name. *)
Definition color_record (tokens : list string) (values : list Double.t)
    : DataNode :=
  mkDataNode tokens
    (fun i => if (i <? 2)%nat then Double.zero
              else nth (i - 2) values Double.zero).

(** ** Notions used in the statements *)

(** The characters the decoder is meant for. *)
Definition is_hex_digit (c : ascii) : bool :=
  ((char_code "0" <=? char_code c) && (char_code c <=? char_code "9"))
  || ((char_code "A" <=? char_code c) && (char_code c <=? char_code "F"))
  || ((char_code "a" <=? char_code c) && (char_code c <=? char_code "f")).

(** What a character at weight [multiplier] adds to the result. *)
Definition contribution (c : ascii) (multiplier : Z) : Z :=
  add_digit c multiplier 0.

(** One channel of the result: the decoded pair, as a [double], over 255. *)
Definition decode_pair (c1 c2 : ascii) : Double.t :=
  Double.div (Double.of_int (HexToDec (String c1 (String c2 EmptyString))))
             (Double.of_int 255).

Definition starts_with_hash (hex : string) : Prop :=
  exists rest, hex = String "#" rest.

(** Encoding a byte with [ToHex] and decoding the digits with [HexToDec]. *)
Definition decode_encoded (v : Z) : option Z :=
  digits <- ToHex v ;; Some (HexToDec digits).

(** Whether a byte is what its encoding decodes to. *)
Definition comes_back (v : Z) : bool :=
  match decode_encoded v with
  | Some v' => v' =? v
  | None => false
  end.

(** Decoding a colour code and encoding the fractions again. *)
Definition reencode (hex : string) : option string :=
  fractions <- HTMLToES hex ;; ESToHTML (channels fractions) 0.

(** Encoding three fractions and decoding the colour code. *)
Definition redecode (fractions : list Double.t) : option (list Double.t) :=
  hex <- ESToHTML (channels fractions) 0 ;; HTMLToES hex.

(** What ["FF"] decodes to: [85 / 255]. *)
Definition decoded_FF : Double.t :=
  Double.div (Double.of_int 85) (Double.of_int 255).


Definition bad_html_record : DataNode :=
  color_record ["color"; "Bad"; "#12"] [].

(** ** [PrintHelp] and [main] *)

(** [endl] is the end of line (the flush does not show in the values
    inserted).  Adjacent string literals are one string. *)
Definition PrintHelp : list output :=
  [Str ("--es-to-hex <file>: Reads Endless Sky colors from the file at the given path and prints to STDOUT"
        ++ "a list of the parsed colors with values given as 24 bit hexadecimal HTML color codes.");
   Chr newline_char;
   Str ("--hex-to-es <file>: Reads 24 bit hexadecimal HTML colors from the file at the given path and prints"
        ++ "to STDOUT a list of the parsed colors in the Endless Sky color format.");
   Chr newline_char;
   Str "Endless Sky format: color <name> <r#> <g#> <b#> [<a#>]";
   Chr newline_char;
   Str "24 bit hex format: color <name> #<0xrr><0xgg><0xbb>";
   Chr newline_char;
   Str "<r#> <g#> <b#> [<a#>]: Converts the given Endless Sky color to HTML format.";
   Chr newline_char;
   Str "#<0xrr><0xgg><0xbb>: Converts the given HTML color to Endless Sky format.";
   Chr newline_char].

Definition missing_argument_message : string :=
  "Error: expected additional argument:"
  ++ String newline_char (String newline_char EmptyString).

(** The loop of [main] over the values of [HTMLToES(arg)]: a space before
    every value but the first.  The state is [(index, printed)]. *)
Definition print_inline (values : list Double.t) : list output :=
  snd (fold_left
         (fun state it =>
            let '(index, printed) := state in
            (index + 1,
             (printed ++ (if index =? 0 then [] else [Chr " "%char])
                      ++ [Num it])%list))
         values (0, [])).

Section Main.

(** What is not part of the sources: [DataFile in(path)], the top-level
    nodes of the file at [path], and [DataNode::AsDataNodes], which [main]
    applies to [*argv]. *)
Variable DataFile : string -> list DataNode.
Variable AsDataNodes : string -> list DataNode.

(** The loop of [main] over [argv + 1 ..]: [Some r] when an iteration
    returns, with what it printed and the exit status, [None] when the loop
    runs to the terminating null pointer. *)
Fixpoint main_loop (args : list string)
    : option (option (list output * Z)) :=
  match args with
  | [] => Some None
  | arg :: rest =>
      if (arg =? "--es-to-hex")%string || (arg =? "--hex-to-es")%string
      then
        match rest with
        | [] => Some (Some (Str missing_argument_message :: PrintHelp, 1))
        | path :: _ =>
            printed <-
              (if (arg =? "--es-to-hex")%string
               then ESFileToHTML (DataFile path)
               else if (arg =? "--hex-to-es")%string
                    then HTMLFileToES (DataFile path)
                    else Some []) ;;
            Some (Some (printed, 0))
        end
      else
        first <- string_at arg 0 ;;
        if Ascii.eqb first "#"
        then values <- HTMLToES arg ;;
             Some (Some (print_inline values, 0))
        else main_loop rest
  end.

(** [argv] holds the program name and the arguments; [argc] is its
    length.  The result is what was printed and the exit status. *)
Definition main (argv : list string) : option (list output * Z) :=
  if (List.length argv <? 2)%nat then Some (PrintHelp, 1)
  else
    returned <- main_loop (tl argv) ;;
    match returned with
    | Some result => Some result
    | None =>
        if (3 <? List.length argv)%nat
        then let data := AsDataNodes (hd EmptyString argv) in
             node <- vector_at data 0 ;;
             html <- ESToHTML node 1 ;;
             Some ([Str html], 0)
        else Some ([], 2)
    end.

End Main.

(** ** More notions used in the statements *)

(** The value of an upper-case hexadecimal digit. *)
Definition digit_value (c : ascii) : option Z :=
  if (char_code "0" <=? char_code c) && (char_code c <=? char_code "9")
  then Some (char_code c - char_code "0")
  else if (char_code "A" <=? char_code c) && (char_code c <=? char_code "F")
       then Some (char_code c - char_code "A" + 10)
       else None.

(** The number an upper-case hexadecimal numeral denotes, high digit
    first; [None] when a character is not such a digit. *)
Fixpoint numeral_value (s : string) (acc : Z) : option Z :=
  match s with
  | EmptyString => Some acc
  | String c rest => d <- digit_value c ;; numeral_value rest (acc * 16 + d)
  end.

Definition is_decimal_digit (c : ascii) : bool :=
  (char_code "0" <=? char_code c) && (char_code c <=? char_code "9").

(** [val] clamped as [ESToHTML] does. *)
Definition clamp (val : Z) : Z := Z.max 0 (Z.min 255 val).

(** The product [ESToHTML] converts to [int] for the channel at [index]. *)
Definition scaled (node : DataNode) (index : nat) : option Z :=
  Double.to_int (Double.mul (Value node index) (Double.of_int 255)).

(** A byte that [ToHex] writes with two decimal digits. *)
Definition two_decimal_digits (v : Z) : Prop :=
  16 <= v <= 255 /\ Z.quot v 16 < 10 /\ Z.rem v 16 < 10.

(** Lower-case letters to upper case, other characters unchanged. *)
Definition upper (c : ascii) : ascii :=
  if (char_code "a" <=? char_code c) && (char_code c <=? char_code "z")
  then ascii_of_N (N_of_ascii c - 32)
  else c.

Fixpoint upper_string (s : string) : string :=
  match s with
  | EmptyString => EmptyString
  | String c rest => String (upper c) (upper_string rest)
  end.

(** The arguments the loop of [main] acts on. *)
Definition recognised (arg : string) : bool :=
  (arg =? "--es-to-hex")%string || (arg =? "--hex-to-es")%string
  || match arg with
     | String c _ => Ascii.eqb c "#"
     | EmptyString => false
     end.

(** No argument of [args] is one the loop of [main] acts on. *)
Definition all_unrecognised (args : list string) : bool :=
  forallb (fun arg => negb (recognised arg)) args.

Definition is_flag (arg : string) : Prop :=
  arg = "--es-to-hex" \/ arg = "--hex-to-es".





(** A file system with no record in any file, and a record list for
    [AsDataNodes], for the examples. *)
Definition no_file (path : string) : list DataNode := [].
Definition no_nodes (text : string) : list DataNode := [].

(** * Properties *)

(** ** The error monad and the loops *)

Lemma for_each_app {A S : Type} (body : S -> A -> option S) (l1 l2 : list A)
    (s : S) :
  for_each (l1 ++ l2) body s = s' <- for_each l1 body s ;; for_each l2 body s'.
Proof.
  revert s. induction l1 as [| x l1 IH]; intros s; simpl.
  - reflexivity.
  - destruct (body s x) as [s' |]; simpl; [apply IH | reflexivity].
Qed.

(** ** [ToHex] *)

Lemma vector_at_DecToHex (d : Z) :
  0 <= d < 16 -> exists c, vector_at DecToHex d = Some c.
Proof.
  intros Hd. unfold vector_at.
  destruct (d <? 0) eqn:Hneg; [apply Z.ltb_lt in Hneg; lia |].
  destruct (nth_error DecToHex (Z.to_nat d)) as [c |] eqn:Hnth.
  - exists c. reflexivity.
  - apply nth_error_None in Hnth. simpl in Hnth. lia.
Qed.

Lemma ToHex_below_16 (val : Z) :
  val < 16 ->
  ToHex val = c <- vector_at DecToHex val ;; Some (String c EmptyString).
Proof.
  intros Hval. rewrite ToHex_equation_1.
  destruct (Z_le_gt_dec 16 val) as [Hge | Hlt]; [lia | reflexivity].
Qed.

Lemma ToHex_from_16 (val : Z) :
  16 <= val ->
  ToHex val = hi <- vector_at DecToHex (Z.quot val 16) ;;
              lo <- ToHex (Z.rem val 16) ;;
              Some (String hi lo).
Proof.
  intros Hval. rewrite ToHex_equation_1.
  destruct (Z_le_gt_dec 16 val) as [Hge | Hlt]; [reflexivity | lia].
Qed.

(** On a byte below 16 the result has one character only. *)
Lemma ToHex_one_digit (val : Z) :
  0 <= val < 16 -> exists c, ToHex val = Some (String c EmptyString).
Proof.
  intros Hval. rewrite ToHex_below_16 by lia.
  destruct (vector_at_DecToHex val Hval) as [c Hc].
  exists c. rewrite Hc. reflexivity.
Qed.

Lemma ToHex_two_digits (val : Z) :
  16 <= val <= 255 ->
  exists hi lo, ToHex val = Some (String hi (String lo EmptyString)).
Proof.
  intros Hval. rewrite ToHex_from_16 by lia.
  assert (Hq : 0 <= Z.quot val 16 < 16).
  { split; [apply Z.quot_pos; lia | apply Z.quot_lt_upper_bound; lia]. }
  assert (Hr : 0 <= Z.rem val 16 < 16) by (apply Z.rem_bound_pos; lia).
  destruct (vector_at_DecToHex _ Hq) as [hi Hhi].
  destruct (ToHex_one_digit _ Hr) as [lo Hlo].
  exists hi, lo. rewrite Hhi, Hlo. reflexivity.
Qed.

(** ** [HexToDec] *)

Ltac char_cases c :=
  unfold contribution, is_hex_digit in *; unfold add_digit, converter in *;
  cbn [fold_left fst snd] in *;
  change (char_code "0") with 48 in *; change (char_code "9") with 57 in *;
  change (char_code "A") with 65 in *; change (char_code "F") with 70 in *;
  change (char_code "a") with 97 in *; change (char_code "f") with 102 in *;
  generalize dependent (char_code c); intros x; intros;
  destruct (48 <=? x) eqn:?, (x <=? 57) eqn:?,
           (65 <=? x) eqn:?, (x <=? 70) eqn:?,
           (97 <=? x) eqn:?, (x <=? 102) eqn:?;
  cbn [andb orb] in *;
  repeat match goal with
         | H : (_ <=? _) = true |- _ => apply Z.leb_le in H
         | H : (_ <=? _) = false |- _ => apply Z.leb_gt in H
         end.

Lemma add_digit_contribution (c : ascii) (multiplier result : Z) :
  add_digit c multiplier result = result + contribution c multiplier.
Proof. char_cases c; lia. Qed.

Lemma contribution_range (c : ascii) (multiplier : Z) :
  0 <= multiplier -> 0 <= contribution c multiplier <= 9 * multiplier.
Proof. intros Hm. char_cases c; nia. Qed.

Lemma contribution_non_hex (c : ascii) (multiplier : Z) :
  is_hex_digit c = false -> contribution c multiplier = 0.
Proof. intros Hc. char_cases c; try discriminate; lia. Qed.

Lemma HexToDec_pair (c1 c2 : ascii) :
  HexToDec (String c1 (String c2 EmptyString))
  = contribution c1 16 + contribution c2 1.
Proof.
  unfold HexToDec. cbn [list_ascii_of_string rev app fold_left snd].
  change (1 * 16) with 16.
  rewrite (add_digit_contribution c2), (add_digit_contribution c1). lia.
Qed.

(** The decoder is only called on [substr(i, 2)]: there the multiplier ends
    at 256 and the result is at most [9 * 16 + 9]. *)
Lemma HexToDec_pair_range (c1 c2 : ascii) :
  0 <= HexToDec (String c1 (String c2 EmptyString)) <= 153.
Proof.
  rewrite HexToDec_pair.
  pose proof (contribution_range c1 16). pose proof (contribution_range c2 1).
  lia.
Qed.

(** ** [ESToHTML] *)

(** The clamp comes after the conversion to [int]: a channel whose product
    with 255 is beyond [INT_MAX] is undefined before it can be clamped. *)
Lemma ESToHTML_undefined_beyond_int :
  Double.to_int (Double.mul (Double.of_int 10000000) (Double.of_int 255))
  = None
  /\ ESToHTML
       (channels [Double.of_int 10000000; Double.zero; Double.zero]) 0
     = None.
Proof. split; reflexivity. Qed.

(** ** [ToHex] followed by [HexToDec] *)

Lemma comes_back_table :
  forallb
    (fun n => let v := Z.of_nat n in
              Bool.eqb (comes_back v)
                       ((Z.quot v 16 <? 10) && (Z.rem v 16 <? 10)))
    (seq 0 256) = true.
Proof. vm_compute. reflexivity. Qed.

(** A byte comes back from its encoding exactly when neither of its hex
    digits is a letter. *)
Lemma comes_back_iff_decimal_digits (v : Z) :
  0 <= v <= 255 ->
  comes_back v = (Z.quot v 16 <? 10) && (Z.rem v 16 <? 10).
Proof.
  intros Hv. pose proof comes_back_table as Hall.
  rewrite forallb_forall in Hall.
  specialize (Hall (Z.to_nat v)). cbv zeta in Hall.
  rewrite Z2Nat.id in Hall by lia.
  apply Bool.eqb_prop, Hall, in_seq. lia.
Qed.

(** ** [HTMLToES] *)

Lemma HTMLToES_well_formed (c1 c2 c3 c4 c5 c6 : ascii) (rest : string) :
  HTMLToES
    (String "#" (String c1 (String c2 (String c3 (String c4
       (String c5 (String c6 rest)))))))
  = Some [decode_pair c1 c2; decode_pair c3 c4; decode_pair c5 c6].
Proof. reflexivity. Qed.

Lemma HTMLToES_no_hash (hex : string) :
  ~ starts_with_hash hex -> HTMLToES hex = Some [].
Proof.
  intros Hno. destruct hex as [| c rest]; [reflexivity |].
  unfold HTMLToES. cbn [string_at bind].
  destruct (Ascii.eqb c "#") eqn:Hc; [| reflexivity].
  apply Ascii.eqb_eq in Hc. subst c.
  exfalso. apply Hno. exists rest. reflexivity.
Qed.

Lemma HTMLToES_short (hex : string) :
  (String.length hex < 7)%nat -> HTMLToES hex = Some [].
Proof.
  intros Hlen. destruct hex as [| c rest]; [reflexivity |].
  unfold HTMLToES. cbn [string_at bind].
  destruct (negb (Ascii.eqb c "#")); [reflexivity |].
  apply Nat.ltb_lt in Hlen. rewrite Hlen. reflexivity.
Qed.

Lemma hash_and_six_more (hex : string) :
  starts_with_hash hex -> (7 <= String.length hex)%nat ->
  exists c1 c2 c3 c4 c5 c6 rest,
    hex = String "#" (String c1 (String c2 (String c3 (String c4
            (String c5 (String c6 rest)))))).
Proof.
  intros [r0 ->] Hlen.
  destruct r0 as [| c1 [| c2 [| c3 [| c4 [| c5 [| c6 rest]]]]]];
    cbn [String.length] in Hlen; try lia.
  exists c1, c2, c3, c4, c5, c6, rest. reflexivity.
Qed.

(** The three shapes of an argument of [HTMLToES]. *)
Lemma HTMLToES_cases (hex : string) :
  (HTMLToES hex = Some []
   /\ (~ starts_with_hash hex \/ (String.length hex < 7)%nat))
  \/ (exists c1 c2 c3 c4 c5 c6,
        HTMLToES hex
        = Some [decode_pair c1 c2; decode_pair c3 c4; decode_pair c5 c6]
        /\ starts_with_hash hex /\ (7 <= String.length hex)%nat).
Proof.
  destruct (Nat.lt_ge_cases (String.length hex) 7) as [Hshort | Hlong].
  { left. split; [apply HTMLToES_short; exact Hshort | right; exact Hshort]. }
  destruct hex as [| c rest]; [cbn in Hlong; lia |].
  destruct (Ascii.eqb c "#") eqn:Hc.
  - apply Ascii.eqb_eq in Hc. subst c. right.
    assert (Hhash : starts_with_hash (String "#" rest))
      by (exists rest; reflexivity).
    destruct (hash_and_six_more _ Hhash Hlong)
      as (c1 & c2 & c3 & c4 & c5 & c6 & tail & Heq).
    exists c1, c2, c3, c4, c5, c6. rewrite Heq at 1.
    rewrite HTMLToES_well_formed. auto.
  - assert (Hno : ~ starts_with_hash (String c rest)).
    { intros [r Hr]. inversion Hr; subst.
      rewrite Ascii.eqb_refl in Hc. discriminate. }
    left. split; [apply HTMLToES_no_hash; exact Hno | left; exact Hno].
Qed.

Lemma unit_interval_up_to_153 :
  forallb
    (fun n => Double.in_unit_interval
                (Double.div (Double.of_int (Z.of_nat n)) (Double.of_int 255)))
    (seq 0 154) = true.
Proof. vm_compute. reflexivity. Qed.

Lemma decode_pair_in_unit_interval (c1 c2 : ascii) :
  Double.in_unit_interval (decode_pair c1 c2) = true.
Proof.
  unfold decode_pair.
  pose proof (HexToDec_pair_range c1 c2) as Hrange.
  set (n := HexToDec (String c1 (String c2 EmptyString))) in *.
  pose proof unit_interval_up_to_153 as Hall.
  rewrite forallb_forall in Hall.
  specialize (Hall (Z.to_nat n)).
  rewrite Z2Nat.id in Hall by lia.
  apply Hall. apply in_seq. lia.
Qed.

(** ** The file conversions *)

Lemma HTMLFileToES_read_appends (file : list DataNode) :
  exists read, forall results,
    HTMLFileToES_read file results = Some (results ++ read)%list.
Proof.
  unfold HTMLFileToES_read.
  induction file as [| node file [read IH]].
  - exists []. intros results. cbn. rewrite app_nil_r. reflexivity.
  - cbn [for_each].
    destruct ((Token node 0 =? "color")%string && (3 <=? Size node)%nat).
    + destruct (HTMLToES_cases (Token node 2))
        as [[Hes _] | (c1 & c2 & c3 & c4 & c5 & c6 & Hes & _)].
      * exists ((Token node 1, []) :: read). intros results.
        rewrite Hes. cbn [bind]. rewrite IH, <- app_assoc. reflexivity.
      * exists ((Token node 1,
                 [decode_pair c1 c2; decode_pair c3 c4; decode_pair c5 c6])
                :: read).
        intros results.
        rewrite Hes. cbn [bind]. rewrite IH, <- app_assoc. reflexivity.
    + exists read. intros results. cbn [bind]. apply IH.
Qed.

(** * The claims *)

(** ** Hex codec *)

(** C1: a byte is meant to come out as two upper-case digits, zero padded
    ([0] as ["00"]).  [ToHex] emits the high digit only from 16 on: [0] comes
    out as the single character ["0"]; [255] does come out as ["FF"]. *)
Theorem ToHex_zero_is_one_digit :
  ToHex 0 = Some "0" /\ ToHex 9 = Some "9" /\ ToHex 15 = Some "F"
  /\ ToHex 16 = Some "10" /\ ToHex 255 = Some "FF".
Proof. repeat split; reflexivity. Qed.

(** C4: decoding the encoding of a byte is meant to give the byte back.
    [HexToDec] subtracts the lower bound of the range a digit falls in, so
    the letters count from 0 instead of 10: [10], encoded ["A"], decodes to
    [0], and [255], encoded ["FF"], decodes to [5 * 16 + 5].  Bytes written
    with decimal digits only, such as [153], do come back. *)
Theorem decode_encoded_letters :
  ToHex 10 = Some "A" /\ decode_encoded 10 = Some 0
  /\ ToHex 255 = Some "FF" /\ decode_encoded 255 = Some 85
  /\ decode_encoded 153 = Some 153.
Proof. repeat split; reflexivity. Qed.

(** C6: in a pair of characters, each character adds its own contribution
    to the decoded integer, and the contribution of a character outside
    ['0'-'9'], ['A'-'F'] and ['a'-'f'] is 0; the pair is decoded all the
    same, nothing is rejected. *)
Theorem HexToDec_non_hex_contributes_zero (c1 c2 : ascii) :
  HexToDec (String c1 (String c2 EmptyString))
  = contribution c1 16 + contribution c2 1
  /\ (is_hex_digit c1 = false -> contribution c1 16 = 0)
  /\ (is_hex_digit c2 = false -> contribution c2 1 = 0).
Proof.
  split; [apply HexToDec_pair |].
  split; apply contribution_non_hex.
Qed.

Lemma HexToDec_non_hex_contributes_zero_witness :
  HexToDec "G7" = contribution "G" 16 + contribution "7" 1
  /\ contribution "G" 16 = 0
  /\ HexToDec "7z" = contribution "7" 16 + contribution "z" 1
  /\ contribution "z" 1 = 0.
Proof.
  destruct (HexToDec_non_hex_contributes_zero "G" "7") as [Hsum [Hfirst _]].
  destruct (HexToDec_non_hex_contributes_zero "7" "z") as [Hsum' [_ Hsecond]].
  split; [exact Hsum |].
  split; [apply Hfirst; reflexivity |].
  split; [exact Hsum' |].
  apply Hsecond; reflexivity.
Defined.

(** ** Colour converter *)

(** C2: the channels [-1.0], [2.0] and [0.5] are meant to give ["#00FF7F"].
    Each product with 255 is truncated and clamped as described ([0], [255]
    and [127]), but the clamped [0] is encoded by [ToHex] as one digit: the
    result has five digits after the [#]. *)
Theorem ESToHTML_clamping_example :
  ESToHTML
    (channels [Double.of_int (-1); Double.of_int 2; Double.half]) 0
  = Some "#0FF7F".
Proof. reflexivity. Qed.

(** C3: decoding a code of six hex digits and encoding the result is meant
    to give the code back in upper case.  ["#FF0000"] comes back as
    ["#5500"] (the letters decode from 0, and the zero channels are encoded
    as one digit each), ["#000000"] as ["#000"] and ["#abcdef"] as
    ["#12345"]; a code whose pairs are decimal and at least [10], such as
    ["#123456"], does come back. *)
Theorem reencode_examples :
  reencode "#FF0000" = Some "#5500"
  /\ reencode "#000000" = Some "#000"
  /\ reencode "#abcdef" = Some "#12345"
  /\ reencode "#123456" = Some "#123456".
Proof. repeat split; reflexivity. Qed.

(** C8: encoding three fractions of [[0, 1]] and decoding the code is meant
    to give three fractions within [1/255] of the originals.  White,
    [(1, 1, 1)], is encoded as ["#FFFFFF"], which decodes to [85/255] in
    each channel, further than [1/255] from [1]; black, [(0, 0, 0)], is
    encoded as ["#000"], which is too short to decode and yields no
    fraction at all. *)
Theorem redecode_examples :
  redecode [Double.one; Double.one; Double.one] = Some [decoded_FF; decoded_FF; decoded_FF]
  /\ Double.ltb (Double.div Double.one (Double.of_int 255))
                (Double.sub Double.one decoded_FF) = true
  /\ redecode [Double.zero; Double.zero; Double.zero] = Some [].
Proof. repeat split; reflexivity. Qed.

(** C5: [HTMLToES] never throws, and its result is empty exactly when the
    argument does not start with [#] or is shorter than 7 characters; so it
    is for ["123456"] and for ["#12"]. *)
Theorem HTMLToES_empty_iff_malformed :
  (forall hex : string,
      HTMLToES hex <> None
      /\ (HTMLToES hex = Some []
          <-> ~ starts_with_hash hex \/ (String.length hex < 7)%nat))
  /\ HTMLToES "123456" = Some []
  /\ HTMLToES "#12" = Some [].
Proof.
  split; [| split; reflexivity].
  intros hex.
  destruct (HTMLToES_cases hex)
    as [[Hes Hbad] | (c1 & c2 & c3 & c4 & c5 & c6 & Hes & Hhash & Hlen)];
    rewrite Hes.
  - split; [discriminate |]. split; auto.
  - split; [discriminate |]. split; [discriminate |].
    intros [Hno | Hshort]; [contradiction | lia].
Qed.

(** C10: on every string, the empty one included, [HTMLToES] returns
    without an out-of-range access; the result has 0 or 3 elements, each in
    [[0.0, 1.0]]; and a decoded pair is never above 255, whatever its two
    characters are. *)
Theorem HTMLToES_total_and_bounded :
  (forall hex : string,
      exists result,
        HTMLToES hex = Some result
        /\ (List.length result = 0 \/ List.length result = 3)%nat
        /\ Forall (fun v => Double.in_unit_interval v = true) result)
  /\ (forall c1 c2 : ascii,
        0 <= HexToDec (String c1 (String c2 EmptyString)) <= 255).
Proof.
  split.
  - intros hex.
    destruct (HTMLToES_cases hex)
      as [[Hes _] | (c1 & c2 & c3 & c4 & c5 & c6 & Hes & _)];
      rewrite Hes; eexists; (split; [reflexivity |]).
    + split; [left; reflexivity | constructor].
    + split; [right; reflexivity |].
      repeat constructor; apply decode_pair_in_unit_interval.
  - intros c1 c2. pose proof (HexToDec_pair_range c1 c2). lia.
Qed.

(** ** Record converter *)




(** C9: a [color] record whose hex token [HTMLToES] decodes to nothing is
    kept: between the lines of the records before it and of those after it,
    it has a line of its own, made of [color], the quoted name and the end
    of line, with no number. *)
Theorem HTMLFileToES_keeps_undecoded_record (before after : list DataNode)
    (node : DataNode) :
  Token node 0 = "color" ->
  (3 <= Size node)%nat ->
  HTMLToES (Token node 2) = Some [] ->
  exists lines_before lines_after,
    HTMLFileToES before = Some lines_before
    /\ HTMLFileToES after = Some lines_after
    /\ HTMLFileToES (before ++ node :: after)
       = Some (lines_before
               ++ [Str "color"; Chr quote_char; Str (Token node 1);
                   Chr quote_char; Chr newline_char]
               ++ lines_after)%list.
Proof.
  intros Hcolor Hsize Hes.
  destruct (HTMLFileToES_read_appends before) as [rb Hb].
  destruct (HTMLFileToES_read_appends after) as [ra Ha].
  exists (HTMLFileToES_print rb), (HTMLFileToES_print ra).
  unfold HTMLFileToES.
  rewrite Hb, Ha. cbn [bind app].
  split; [reflexivity |]. split; [reflexivity |].
  unfold HTMLFileToES_read in *. rewrite for_each_app, Hb.
  cbn [bind app for_each].
  apply Nat.leb_le in Hsize.
  rewrite Hcolor, String.eqb_refl, Hsize, Hes. cbn [andb bind].
  rewrite Ha. cbn [bind].
  unfold HTMLFileToES_print. rewrite !flat_map_app, <- app_assoc.
  reflexivity.
Qed.

Lemma HTMLFileToES_keeps_undecoded_record_witness :
  HTMLFileToES [bad_html_record]
  = Some [Str "color"; Chr quote_char; Str "Bad"; Chr quote_char;
          Chr newline_char].
Proof.
  destruct (HTMLFileToES_keeps_undecoded_record [] [] bad_html_record)
    as (lb & la & Hb & Ha & Hline);
    [reflexivity | cbn; lia | reflexivity |].
  cbn in Hb, Ha. injection Hb as <-. injection Ha as <-.
  exact Hline.
Defined.

(** * Further properties of the code *)

(** ** [ToHex] *)

Lemma ToHex_outside_byte (val : Z) :
  val < 0 \/ 255 < val -> ToHex val = None.
Proof.
  intros [Hneg | Hbig].
  - rewrite ToHex_below_16 by lia. unfold vector_at.
    apply Z.ltb_lt in Hneg. rewrite Hneg. reflexivity.
  - rewrite ToHex_from_16 by lia. unfold vector_at.
    assert (Hq : 16 <= Z.quot val 16) by (apply Z.quot_le_lower_bound; lia).
    destruct (Z.quot val 16 <? 0) eqn:Hsign; [reflexivity |].
    assert (Hnone : nth_error DecToHex (Z.to_nat (Z.quot val 16)) = None)
      by (apply nth_error_None; cbn [List.length DecToHex]; lia).
    rewrite Hnone. reflexivity.
Qed.

Lemma ToHex_byte_table :
  forallb
    (fun n =>
       let v := Z.of_nat n in
       match ToHex v with
       | Some s =>
           match numeral_value s 0 with
           | Some v' =>
               (v' =? v)
               && Nat.eqb (String.length s)
                          (if v <? 16 then 1%nat else 2%nat)
           | None => false
           end
       | None => false
       end)
    (seq 0 256) = true.
Proof. vm_compute. reflexivity. Qed.

Lemma ToHex_byte (val : Z) :
  0 <= val <= 255 ->
  exists s, ToHex val = Some s
            /\ numeral_value s 0 = Some val
            /\ String.length s = if val <? 16 then 1%nat else 2%nat.
Proof.
  intros Hval. pose proof ToHex_byte_table as Hall.
  rewrite forallb_forall in Hall.
  specialize (Hall (Z.to_nat val)). cbv zeta in Hall.
  rewrite Z2Nat.id in Hall by lia.
  assert (Hin : In (Z.to_nat val) (seq 0 256)) by (apply in_seq; lia).
  specialize (Hall Hin).
  destruct (ToHex val) as [s |]; [| discriminate].
  destruct (numeral_value s 0) as [v' |] eqn:Hnum; [| discriminate].
  apply andb_prop in Hall. destruct Hall as [Hv Hlen].
  apply Z.eqb_eq in Hv. apply Nat.eqb_eq in Hlen. subst v'.
  exists s. repeat split; [exact Hnum | exact Hlen].
Qed.

(** X1: [ToHex] is defined on the bytes and nowhere else: below 0 and from
    256 on it reads [DecToHex] out of range. *)
Theorem ToHex_defined_iff_byte (val : Z) :
  ToHex val <> None <-> 0 <= val <= 255.
Proof.
  split.
  - intros Hdef.
    destruct (Z_lt_ge_dec val 0) as [Hneg | Hpos];
      [exfalso; apply Hdef, ToHex_outside_byte; lia |].
    destruct (Z_lt_ge_dec 255 val) as [Hbig | Hsmall];
      [exfalso; apply Hdef, ToHex_outside_byte; lia | lia].
  - intros Hval. destruct (ToHex_byte val Hval) as (s & Hs & _).
    rewrite Hs. discriminate.
Qed.

(** X2: what [ToHex] returns is the upper-case hexadecimal numeral of its
    argument, high digit first: one digit below 16, two from 16 on. *)
Theorem ToHex_numeral (val : Z) (s : string) :
  ToHex val = Some s ->
  numeral_value s 0 = Some val
  /\ String.length s = if val <? 16 then 1%nat else 2%nat.
Proof.
  intros Hs.
  destruct (Z_lt_ge_dec val 0) as [Hneg | Hpos];
    [rewrite ToHex_outside_byte in Hs by lia; discriminate |].
  destruct (Z_lt_ge_dec 255 val) as [Hbig | Hsmall];
    [rewrite ToHex_outside_byte in Hs by lia; discriminate |].
  destruct (ToHex_byte val) as (s' & Hs' & Hvalue & Hlen); [lia |].
  rewrite Hs in Hs'. injection Hs' as <-. auto.
Qed.

Lemma ToHex_numeral_witness :
  numeral_value "AB" 0 = Some 171 /\ String.length "AB" = 2%nat.
Proof. apply (ToHex_numeral 171 "AB"). reflexivity. Defined.

(** ** [ESToHTML] *)

Lemma clamp_byte (val : Z) : 0 <= clamp val <= 255.
Proof. unfold clamp. lia. Qed.

Lemma ESToHTML_steps (node : DataNode) (index : nat) :
  ESToHTML node index
  = n0 <- scaled node (index + 0) ;;
    h0 <- ToHex (clamp n0) ;;
    n1 <- scaled node (index + 1) ;;
    h1 <- ToHex (clamp n1) ;;
    n2 <- scaled node (index + 2) ;;
    h2 <- ToHex (clamp n2) ;;
    Some ((("#" ++ h0) ++ h1) ++ h2)%string.
Proof.
  unfold ESToHTML, scaled, clamp. cbn [for_each].
  destruct (Double.to_int _) as [n0 |]; [cbn [bind] | reflexivity].
  destruct (ToHex _) as [h0 |]; [cbn [bind] | reflexivity].
  destruct (Double.to_int _) as [n1 |]; [cbn [bind] | reflexivity].
  destruct (ToHex _) as [h1 |]; [cbn [bind] | reflexivity].
  destruct (Double.to_int _) as [n2 |]; [cbn [bind] | reflexivity].
  destruct (ToHex _) as [h2 |]; reflexivity.
Qed.

Lemma append_assoc (a b c : string) :
  ((a ++ b) ++ c = a ++ b ++ c)%string.
Proof.
  induction a as [| x a IH]; cbn; [reflexivity | rewrite IH; reflexivity].
Qed.

(** X3: the clamp keeps [ToHex] inside its table, so [ESToHTML] is
    undefined only through the conversion to [int]: exactly when one of the
    three products with 255 does not fit an [int]. *)
Theorem ESToHTML_undefined_iff (node : DataNode) (index : nat) :
  ESToHTML node index = None
  <-> scaled node index = None
      \/ scaled node (index + 1) = None
      \/ scaled node (index + 2) = None.
Proof.
  rewrite ESToHTML_steps, Nat.add_0_r.
  destruct (scaled node index) as [n0 |]; cbn [bind]; [| tauto].
  destruct (ToHex_byte _ (clamp_byte n0)) as (h0 & -> & _). cbn [bind].
  destruct (scaled node (index + 1)) as [n1 |]; cbn [bind]; [| tauto].
  destruct (ToHex_byte _ (clamp_byte n1)) as (h1 & -> & _). cbn [bind].
  destruct (scaled node (index + 2)) as [n2 |]; cbn [bind]; [| tauto].
  destruct (ToHex_byte _ (clamp_byte n2)) as (h2 & -> & _). cbn [bind].
  split; [discriminate | intros [H | [H | H]]; discriminate].
Qed.

(** X4: when the three products fit an [int], the result is [#] followed
    by three numerals, of one or two digits each, whose values are the
    three truncated products clamped to [0 .. 255]. *)
Theorem ESToHTML_numerals (node : DataNode) (index : nat) (n0 n1 n2 : Z) :
  scaled node index = Some n0 ->
  scaled node (index + 1) = Some n1 ->
  scaled node (index + 2) = Some n2 ->
  exists h0 h1 h2,
    ESToHTML node index = Some ("#" ++ h0 ++ h1 ++ h2)%string
    /\ numeral_value h0 0 = Some (clamp n0)
    /\ numeral_value h1 0 = Some (clamp n1)
    /\ numeral_value h2 0 = Some (clamp n2)
    /\ (1 <= String.length h0 <= 2)%nat
    /\ (1 <= String.length h1 <= 2)%nat
    /\ (1 <= String.length h2 <= 2)%nat.
Proof.
  intros H0 H1 H2.
  rewrite ESToHTML_steps, Nat.add_0_r, H0, H1, H2. cbn [bind].
  destruct (ToHex_byte _ (clamp_byte n0)) as (h0 & -> & Hv0 & Hl0).
  cbn [bind].
  destruct (ToHex_byte _ (clamp_byte n1)) as (h1 & -> & Hv1 & Hl1).
  cbn [bind].
  destruct (ToHex_byte _ (clamp_byte n2)) as (h2 & -> & Hv2 & Hl2).
  exists h0, h1, h2. cbn [bind].
  rewrite !append_assoc.
  repeat split; auto;
    rewrite ?Hl0, ?Hl1, ?Hl2;
    match goal with |- context [if ?b then _ else _] => destruct b end; lia.
Qed.

Lemma ESToHTML_numerals_witness :
  exists h0 h1 h2,
    ESToHTML (channels [Double.of_int (-1); Double.of_int 2; Double.half]) 0
    = Some ("#" ++ h0 ++ h1 ++ h2)%string
    /\ numeral_value h0 0 = Some (clamp (-255))
    /\ numeral_value h1 0 = Some (clamp 510)
    /\ numeral_value h2 0 = Some (clamp 127)
    /\ (1 <= String.length h0 <= 2)%nat
    /\ (1 <= String.length h1 <= 2)%nat
    /\ (1 <= String.length h2 <= 2)%nat.
Proof.
  apply (ESToHTML_numerals
           (channels [Double.of_int (-1); Double.of_int 2; Double.half]) 0
           (-255) 510 127); reflexivity.
Defined.

(** X5: [ESToHTML] reads the three values from [index] on and nothing
    else of the node: a fourth value (alpha), the tokens and the values
    before [index] do not change the result. *)
Theorem ESToHTML_reads_three_values (node node' : DataNode)
    (index index' : nat) :
  (forall i, (i < 3)%nat -> Value node (index + i) = Value node' (index' + i)) ->
  ESToHTML node index = ESToHTML node' index'.
Proof.
  intros Hsame. rewrite !ESToHTML_steps. unfold scaled.
  rewrite (Hsame 0%nat), (Hsame 1%nat), (Hsame 2%nat) by lia.
  reflexivity.
Qed.

Lemma ESToHTML_reads_three_values_witness :
  ESToHTML (channels [Double.one; Double.half; Double.zero; Double.half]) 0
  = ESToHTML
      (color_record ["color"; "c"; "1"; "0.5"; "0"]
                    [Double.one; Double.half; Double.zero]) 2.
Proof.
  apply ESToHTML_reads_three_values.
  intros i Hi.
  destruct i as [| [| [| i]]]; [reflexivity | reflexivity | reflexivity | lia].
Defined.

(** ** [HexToDec] and [HTMLToES] *)

Lemma decimal_digit_contribution (c : ascii) (multiplier : Z) :
  is_decimal_digit c = true ->
  contribution c multiplier = (char_code c - 48) * multiplier
  /\ digit_value c = Some (char_code c - 48)
  /\ 48 <= char_code c <= 57.
Proof.
  unfold is_decimal_digit, digit_value. intros Hc.
  change (char_code "0") with 48 in *. change (char_code "9") with 57 in *.
  rewrite Hc. apply andb_prop in Hc. destruct Hc as [Hlo Hhi].
  apply Z.leb_le in Hlo. apply Z.leb_le in Hhi.
  split; [| split; [reflexivity | lia]].
  char_cases c; lia.
Qed.

(** On two decimal digits the decoder returns the number the pair denotes
    in base 16. *)
Lemma HexToDec_decimal_pair (c1 c2 : ascii) :
  is_decimal_digit c1 = true ->
  is_decimal_digit c2 = true ->
  numeral_value (String c1 (String c2 EmptyString)) 0
  = Some (HexToDec (String c1 (String c2 EmptyString))).
Proof.
  intros H1 H2. rewrite HexToDec_pair.
  destruct (decimal_digit_contribution c1 16 H1) as (-> & Hd1 & _).
  destruct (decimal_digit_contribution c2 1 H2) as (-> & Hd2 & _).
  cbn [numeral_value]. rewrite Hd1. cbn [bind]. rewrite Hd2. cbn [bind].
  f_equal. lia.
Qed.

Lemma HexToDec_decimal_pair_witness :
  numeral_value "42" 0 = Some (HexToDec "42") /\ HexToDec "42" = 66.
Proof.
  split; [apply HexToDec_decimal_pair; reflexivity | reflexivity].
Defined.

(** X6: a colour code whose six digits are decimal is decoded to the
    three bytes its pairs denote in base 16, each divided by 255. *)
Theorem HTMLToES_decimal_code (c1 c2 c3 c4 c5 c6 : ascii) (tail : string) :
  Forall (fun c => is_decimal_digit c = true) [c1; c2; c3; c4; c5; c6] ->
  exists v1 v2 v3,
    numeral_value (String c1 (String c2 EmptyString)) 0 = Some v1
    /\ numeral_value (String c3 (String c4 EmptyString)) 0 = Some v2
    /\ numeral_value (String c5 (String c6 EmptyString)) 0 = Some v3
    /\ HTMLToES
         (String "#" (String c1 (String c2 (String c3 (String c4
            (String c5 (String c6 tail)))))))
       = Some [Double.div (Double.of_int v1) (Double.of_int 255);
               Double.div (Double.of_int v2) (Double.of_int 255);
               Double.div (Double.of_int v3) (Double.of_int 255)].
Proof.
  intros Hdec.
  repeat match goal with
         | H : Forall _ (_ :: _) |- _ => inversion H; subst; clear H
         end.
  exists (HexToDec (String c1 (String c2 EmptyString))),
         (HexToDec (String c3 (String c4 EmptyString))),
         (HexToDec (String c5 (String c6 EmptyString))).
  rewrite !HexToDec_decimal_pair by assumption.
  rewrite HTMLToES_well_formed. auto.
Qed.

Lemma HTMLToES_decimal_code_witness :
  exists v1 v2 v3,
    numeral_value "19" 0 = Some v1
    /\ numeral_value "99" 0 = Some v2
    /\ numeral_value "66" 0 = Some v3
    /\ HTMLToES "#199966"
       = Some [Double.div (Double.of_int v1) (Double.of_int 255);
               Double.div (Double.of_int v2) (Double.of_int 255);
               Double.div (Double.of_int v3) (Double.of_int 255)].
Proof.
  apply (HTMLToES_decimal_code "1" "9" "9" "9" "6" "6" EmptyString).
  repeat constructor.
Defined.

(** X7: [HTMLToES] looks at the first seven characters only: what follows
    them is neither decoded nor checked. *)
Theorem HTMLToES_ignores_tail (hex tail : string) :
  (7 <= String.length hex)%nat ->
  HTMLToES (hex ++ tail) = HTMLToES hex.
Proof.
  intros Hlen.
  destruct hex as [| c0 [| c1 [| c2 [| c3 [| c4 [| c5 [| c6 rest]]]]]]];
    cbn [String.length] in Hlen; try lia.
  cbn [append].
  destruct (Ascii.eqb c0 "#") eqn:Hc0.
  - apply Ascii.eqb_eq in Hc0. subst c0.
    rewrite !HTMLToES_well_formed. reflexivity.
  - unfold HTMLToES. cbn [string_at bind]. rewrite Hc0. reflexivity.
Qed.

Lemma HTMLToES_ignores_tail_witness :
  HTMLToES ("#123456" ++ "78 and more") = HTMLToES "#123456".
Proof. apply HTMLToES_ignores_tail. cbn. lia. Defined.

Lemma upper_char_facts (c : ascii) :
  contribution (upper c) 1 = contribution c 1
  /\ contribution (upper c) 16 = contribution c 16
  /\ Ascii.eqb (upper c) "#" = Ascii.eqb c "#".
Proof.
  destruct c as [[] [] [] [] [] [] [] []]; vm_compute; auto.
Qed.

Lemma upper_string_length (s : string) :
  String.length (upper_string s) = String.length s.
Proof.
  induction s as [| c s IH]; cbn; [reflexivity | rewrite IH; reflexivity].
Qed.

Lemma decode_pair_upper (c1 c2 : ascii) :
  decode_pair (upper c1) (upper c2) = decode_pair c1 c2.
Proof.
  unfold decode_pair. rewrite !HexToDec_pair.
  destruct (upper_char_facts c1) as (_ & -> & _).
  destruct (upper_char_facts c2) as (-> & _).
  reflexivity.
Qed.

(** X8: the decoder does not distinguish the case of letters: a colour
    code and the same code in upper case give the same result. *)
Theorem HTMLToES_upper_string (hex : string) :
  HTMLToES (upper_string hex) = HTMLToES hex.
Proof.
  destruct (Nat.lt_ge_cases (String.length hex) 7) as [Hshort | Hlong].
  { rewrite !HTMLToES_short; [reflexivity | exact Hshort |].
    rewrite upper_string_length. exact Hshort. }
  destruct hex as [| c0 [| c1 [| c2 [| c3 [| c4 [| c5 [| c6 rest]]]]]]];
    cbn [String.length] in Hlong; try lia.
  cbn [upper_string].
  destruct (upper_char_facts c0) as (_ & _ & Hhash).
  destruct (Ascii.eqb c0 "#") eqn:Hc0.
  - apply Ascii.eqb_eq in Hhash. apply Ascii.eqb_eq in Hc0.
    rewrite Hhash, Hc0, !HTMLToES_well_formed, !decode_pair_upper.
    reflexivity.
  - unfold HTMLToES. cbn [string_at bind]. rewrite Hhash, Hc0. reflexivity.
Qed.

(** ** Decoding, then encoding *)

Lemma scaled_decoded_table :
  forallb
    (fun n =>
       match Double.to_int
               (Double.mul
                  (Double.div (Double.of_int (Z.of_nat n)) (Double.of_int 255))
                  (Double.of_int 255)) with
       | Some m => m =? Z.of_nat n
       | None => false
       end)
    (seq 0 154) = true.
Proof. vm_compute. reflexivity. Qed.

(** Dividing a decoded pair by 255 and multiplying by 255 again, in
    binary64, truncates to the decoded pair: nothing is lost. *)
Lemma scaled_decode_pair (c1 c2 : ascii) :
  Double.to_int (Double.mul (decode_pair c1 c2) (Double.of_int 255))
  = Some (HexToDec (String c1 (String c2 EmptyString))).
Proof.
  unfold decode_pair.
  pose proof (HexToDec_pair_range c1 c2) as Hrange.
  set (n := HexToDec (String c1 (String c2 EmptyString))) in *.
  pose proof scaled_decoded_table as Hall.
  rewrite forallb_forall in Hall.
  specialize (Hall (Z.to_nat n)).
  rewrite Z2Nat.id in Hall by lia.
  assert (Hin : In (Z.to_nat n) (seq 0 154)) by (apply in_seq; lia).
  specialize (Hall Hin).
  destruct (Double.to_int _) as [m |]; [| discriminate].
  apply Z.eqb_eq in Hall. subst m. reflexivity.
Qed.

Lemma ESToHTML_of_decoded (c1 c2 c3 c4 c5 c6 : ascii) :
  ESToHTML
    (channels [decode_pair c1 c2; decode_pair c3 c4; decode_pair c5 c6]) 0
  = h1 <- ToHex (HexToDec (String c1 (String c2 EmptyString))) ;;
    h2 <- ToHex (HexToDec (String c3 (String c4 EmptyString))) ;;
    h3 <- ToHex (HexToDec (String c5 (String c6 EmptyString))) ;;
    Some ("#" ++ h1 ++ h2 ++ h3)%string.
Proof.
  rewrite ESToHTML_steps. unfold scaled.
  cbn [channels Value nth Nat.add].
  rewrite !scaled_decode_pair. cbn [bind].
  pose proof (HexToDec_pair_range c1 c2).
  pose proof (HexToDec_pair_range c3 c4).
  pose proof (HexToDec_pair_range c5 c6).
  unfold clamp.
  rewrite !Z.min_r, !Z.max_r by lia.
  destruct (ToHex _) as [h1 |]; [cbn [bind] | reflexivity].
  destruct (ToHex _) as [h2 |]; [cbn [bind] | reflexivity].
  destruct (ToHex _) as [h3 |]; [cbn [bind] | reflexivity].
  rewrite !append_assoc. reflexivity.
Qed.

(** X9: decoding a code of [#] and six characters and encoding the result
    writes, after [#], the numerals of the three decoded integers: the
    division by 255 and the multiplication by 255, in floating point, give
    each decoded integer back exactly. *)
Theorem reencode_writes_decoded_integers
    (c1 c2 c3 c4 c5 c6 : ascii) (tail : string) :
  exists h1 h2 h3,
    ToHex (HexToDec (String c1 (String c2 EmptyString))) = Some h1
    /\ ToHex (HexToDec (String c3 (String c4 EmptyString))) = Some h2
    /\ ToHex (HexToDec (String c5 (String c6 EmptyString))) = Some h3
    /\ reencode
         (String "#" (String c1 (String c2 (String c3 (String c4
            (String c5 (String c6 tail)))))))
       = Some ("#" ++ h1 ++ h2 ++ h3)%string.
Proof.
  unfold reencode.
  rewrite HTMLToES_well_formed. cbn [bind].
  rewrite ESToHTML_of_decoded.
  pose proof (HexToDec_pair_range c1 c2) as R1.
  pose proof (HexToDec_pair_range c3 c4) as R2.
  pose proof (HexToDec_pair_range c5 c6) as R3.
  destruct (ToHex_byte (HexToDec (String c1 (String c2 EmptyString))))
    as (h1 & -> & _); [lia |].
  destruct (ToHex_byte (HexToDec (String c3 (String c4 EmptyString))))
    as (h2 & -> & _); [lia |].
  destruct (ToHex_byte (HexToDec (String c5 (String c6 EmptyString))))
    as (h3 & -> & _); [lia |].
  exists h1, h2, h3. auto.
Qed.

Lemma DecToHex_decimal_digit (c : ascii) :
  is_decimal_digit c = true ->
  vector_at DecToHex (char_code c - 48) = Some c.
Proof.
  destruct c as [[] [] [] [] [] [] [] []]; vm_compute; intros H;
    (discriminate H || reflexivity).
Qed.

Lemma char_code_zero (c : ascii) : char_code c = 48 -> c = "0"%char.
Proof.
  unfold char_code. intros Hc.
  rewrite <- (ascii_N_embedding c).
  replace (N_of_ascii c) with 48%N by lia. reflexivity.
Qed.

Lemma ToHex_decimal_pair (c1 c2 : ascii) :
  is_decimal_digit c1 = true ->
  is_decimal_digit c2 = true ->
  c1 <> "0"%char ->
  ToHex (HexToDec (String c1 (String c2 EmptyString)))
  = Some (String c1 (String c2 EmptyString)).
Proof.
  intros H1 H2 Hnz. rewrite HexToDec_pair.
  destruct (decimal_digit_contribution c1 16 H1) as (-> & _ & R1).
  destruct (decimal_digit_contribution c2 1 H2) as (-> & _ & R2).
  assert (Hc1 : char_code c1 <> 48)
    by (intros Heq; apply Hnz, char_code_zero, Heq).
  set (x := char_code c1 - 48) in *. set (y := char_code c2 - 48) in *.
  assert (Hq : Z.quot (x * 16 + y * 1) 16 = x)
    by (symmetry; apply Z.quot_unique with (r := y); lia).
  assert (Hr : Z.rem (x * 16 + y * 1) 16 = y)
    by (symmetry; apply Z.rem_unique with (q := x); lia).
  rewrite ToHex_from_16 by lia. rewrite Hq, Hr.
  rewrite ToHex_below_16 by lia.
  subst x y. rewrite !DecToHex_decimal_digit by assumption.
  reflexivity.
Qed.

(** X10: a colour code whose six digits are decimal, the first of each
    pair not [0], comes back unchanged from decoding and encoding;
    characters after the code are dropped. *)
Theorem reencode_decimal_code (c1 c2 c3 c4 c5 c6 : ascii) (tail : string) :
  Forall (fun c => is_decimal_digit c = true) [c1; c2; c3; c4; c5; c6] ->
  Forall (fun c => c <> "0"%char) [c1; c3; c5] ->
  reencode
    (String "#" (String c1 (String c2 (String c3 (String c4
       (String c5 (String c6 tail)))))))
  = Some (String "#" (String c1 (String c2 (String c3 (String c4
            (String c5 (String c6 EmptyString))))))).
Proof.
  intros Hdec Hnz.
  repeat match goal with
         | H : Forall _ (_ :: _) |- _ => inversion H; subst; clear H
         end.
  unfold reencode.
  rewrite HTMLToES_well_formed. cbn [bind].
  rewrite ESToHTML_of_decoded.
  rewrite !ToHex_decimal_pair by assumption.
  reflexivity.
Qed.

Lemma reencode_decimal_code_witness :
  reencode "#123456 trailing" = Some "#123456".
Proof.
  apply (reencode_decimal_code "1" "2" "3" "4" "5" "6" " trailing").
  - repeat constructor.
  - repeat constructor; discriminate.
Defined.

(** ** Encoding, then decoding *)

Lemma ToHex_decimal_table :
  forallb
    (fun n =>
       let v := Z.of_nat n in
       implb ((16 <=? v) && (Z.quot v 16 <? 10) && (Z.rem v 16 <? 10))
             match ToHex v with
             | Some (String a (String b EmptyString)) =>
                 HexToDec (String a (String b EmptyString)) =? v
             | _ => false
             end)
    (seq 0 256) = true.
Proof. vm_compute. reflexivity. Qed.

Lemma ToHex_decimal_byte (v : Z) :
  16 <= v <= 255 -> Z.quot v 16 < 10 -> Z.rem v 16 < 10 ->
  exists a b,
    ToHex v = Some (String a (String b EmptyString))
    /\ HexToDec (String a (String b EmptyString)) = v.
Proof.
  intros Hv Hq Hr. pose proof ToHex_decimal_table as Hall.
  rewrite forallb_forall in Hall.
  specialize (Hall (Z.to_nat v)). cbv zeta in Hall.
  rewrite Z2Nat.id in Hall by lia.
  assert (Hin : In (Z.to_nat v) (seq 0 256)) by (apply in_seq; lia).
  specialize (Hall Hin).
  apply Z.ltb_lt in Hq. apply Z.ltb_lt in Hr.
  assert (H16 : (16 <=? v) = true) by (apply Z.leb_le; lia).
  rewrite H16, Hq, Hr in Hall. cbn [andb implb] in Hall.
  destruct (ToHex v) as [[| a [| b [| c rest]]] |]; try discriminate.
  exists a, b. apply Z.eqb_eq in Hall. auto.
Qed.

(** X11: when each of the three channels, multiplied by 255, truncated and
    clamped, is a byte written with two decimal digits, decoding the
    encoded colour gives these three bytes over 255. *)
Theorem redecode_decimal_bytes (f0 f1 f2 : Double.t) (n0 n1 n2 : Z) :
  Double.to_int (Double.mul f0 (Double.of_int 255)) = Some n0 ->
  Double.to_int (Double.mul f1 (Double.of_int 255)) = Some n1 ->
  Double.to_int (Double.mul f2 (Double.of_int 255)) = Some n2 ->
  two_decimal_digits (clamp n0) ->
  two_decimal_digits (clamp n1) ->
  two_decimal_digits (clamp n2) ->
  redecode [f0; f1; f2]
  = Some [Double.div (Double.of_int (clamp n0)) (Double.of_int 255);
          Double.div (Double.of_int (clamp n1)) (Double.of_int 255);
          Double.div (Double.of_int (clamp n2)) (Double.of_int 255)].
Proof.
  intros H0 H1 H2 (R0 & Q0 & M0) (R1 & Q1 & M1) (R2 & Q2 & M2).
  unfold redecode. rewrite ESToHTML_steps. unfold scaled.
  cbn [channels Value nth Nat.add]. rewrite H0, H1, H2. cbn [bind].
  destruct (ToHex_decimal_byte _ R0 Q0 M0) as (a0 & b0 & -> & E0).
  destruct (ToHex_decimal_byte _ R1 Q1 M1) as (a1 & b1 & -> & E1).
  destruct (ToHex_decimal_byte _ R2 Q2 M2) as (a2 & b2 & -> & E2).
  cbn [bind append]. rewrite HTMLToES_well_formed.
  unfold decode_pair. rewrite E0, E1, E2. reflexivity.
Qed.

Lemma redecode_decimal_bytes_witness :
  redecode [Double.div (Double.of_int 1) (Double.of_int 10);
            Double.div (Double.of_int 3) (Double.of_int 5);
            Double.div (Double.of_int 2) (Double.of_int 5)]
  = Some [Double.div (Double.of_int 25) (Double.of_int 255);
          Double.div (Double.of_int 153) (Double.of_int 255);
          Double.div (Double.of_int 102) (Double.of_int 255)].
Proof.
  apply (redecode_decimal_bytes _ _ _ 25 153 102);
    try reflexivity; unfold two_decimal_digits; cbn; lia.
Defined.

(** ** The file conversions, record by record *)

Lemma ESFileToHTML_read_from (file : list DataNode)
    (results : list (string * string)) :
  ESFileToHTML_read file results
  = read <- ESFileToHTML_read file [] ;; Some (results ++ read)%list.
Proof.
  unfold ESFileToHTML_read. revert results.
  induction file as [| node file IH]; intros results.
  - cbn. rewrite app_nil_r. reflexivity.
  - cbn [for_each].
    destruct ((Token node 0 =? "color")%string && (5 <=? Size node)%nat).
    + destruct (ESToHTML node 2) as [html |]; [cbn [bind app] | reflexivity].
      rewrite IH. rewrite (IH [(Token node 1, html)]).
      destruct (for_each file _ []) as [read |]; [cbn [bind] | reflexivity].
      rewrite <- app_assoc. reflexivity.
    + cbn [bind]. apply IH.
Qed.

Lemma ESFileToHTML_print_app (r1 r2 : list (string * string)) :
  ESFileToHTML_print (r1 ++ r2)
  = (ESFileToHTML_print r1 ++ ESFileToHTML_print r2)%list.
Proof. apply flat_map_app. Qed.

Lemma HTMLFileToES_print_app (r1 r2 : list (string * list Double.t)) :
  HTMLFileToES_print (r1 ++ r2)
  = (HTMLFileToES_print r1 ++ HTMLFileToES_print r2)%list.
Proof. apply flat_map_app. Qed.

Lemma ESFileToHTML_read_app (file1 file2 : list DataNode) :
  ESFileToHTML_read (file1 ++ file2) []
  = r1 <- ESFileToHTML_read file1 [] ;;
    r2 <- ESFileToHTML_read file2 [] ;;
    Some (r1 ++ r2)%list.
Proof.
  unfold ESFileToHTML_read at 1. rewrite for_each_app.
  fold (ESFileToHTML_read file1 []).
  destruct (ESFileToHTML_read file1 []) as [r1 |]; [cbn [bind] | reflexivity].
  apply ESFileToHTML_read_from.
Qed.

(** X12: [ESFileToHTML] converts the records one by one and in order: the
    output for two lists of records, one after the other, is the output for
    the first followed by the output for the second. *)
Theorem ESFileToHTML_app (file1 file2 : list DataNode) :
  ESFileToHTML (file1 ++ file2)
  = lines1 <- ESFileToHTML file1 ;;
    lines2 <- ESFileToHTML file2 ;;
    Some (lines1 ++ lines2)%list.
Proof.
  unfold ESFileToHTML. rewrite ESFileToHTML_read_app.
  destruct (ESFileToHTML_read file1 []) as [r1 |]; [cbn [bind] | reflexivity].
  destruct (ESFileToHTML_read file2 []) as [r2 |]; [cbn [bind] | reflexivity].
  rewrite ESFileToHTML_print_app. reflexivity.
Qed.

(** X13: [HTMLFileToES] is defined on every file, and converts the
    records one by one and in order. *)
Theorem HTMLFileToES_app (file1 file2 : list DataNode) :
  exists lines1 lines2,
    HTMLFileToES file1 = Some lines1
    /\ HTMLFileToES file2 = Some lines2
    /\ HTMLFileToES (file1 ++ file2) = Some (lines1 ++ lines2)%list.
Proof.
  destruct (HTMLFileToES_read_appends file1) as [r1 H1].
  destruct (HTMLFileToES_read_appends file2) as [r2 H2].
  exists (HTMLFileToES_print r1), (HTMLFileToES_print r2).
  unfold HTMLFileToES. rewrite H1, H2. cbn [bind app].
  split; [reflexivity |]. split; [reflexivity |].
  unfold HTMLFileToES_read in *. rewrite for_each_app, H1. cbn [bind app].
  rewrite H2. cbn [bind]. rewrite HTMLFileToES_print_app. reflexivity.
Qed.

(** X14: [HTMLFileToES] skips a record whose first token is not [color] or
    that has fewer than 3 tokens (no hex token after the name). *)
Theorem HTMLFileToES_skips_record (before after : list DataNode)
    (node : DataNode) :
  Token node 0 <> "color" \/ (Size node < 3)%nat ->
  HTMLFileToES (before ++ node :: after) = HTMLFileToES (before ++ after).
Proof.
  intros Hskip. unfold HTMLFileToES, HTMLFileToES_read.
  rewrite !for_each_app. cbn [for_each].
  assert (Hcond : (Token node 0 =? "color")%string && (3 <=? Size node)%nat
                  = false).
  { destruct Hskip as [Hkey | Hsize].
    - apply String.eqb_neq in Hkey. rewrite Hkey. reflexivity.
    - apply Nat.leb_gt in Hsize. rewrite Hsize. apply andb_false_r. }
  rewrite Hcond. reflexivity.
Qed.

Lemma HTMLFileToES_skips_record_witness :
  HTMLFileToES ([] ++ color_record ["color"; "NoCode"] [] :: [])
  = HTMLFileToES ([] ++ [])
  /\ HTMLFileToES
       ([] ++ color_record ["colour"; "Red"; "#123456"] [] :: [])
     = HTMLFileToES ([] ++ []).
Proof.
  split; apply HTMLFileToES_skips_record.
  - right. cbn. lia.
  - left. discriminate.
Defined.

(** X15: [ESFileToHTML] skips a record whose first token is not [color],
    however many values it has. *)
Theorem ESFileToHTML_skips_other_keyword (before after : list DataNode)
    (node : DataNode) :
  Token node 0 <> "color" ->
  ESFileToHTML (before ++ node :: after) = ESFileToHTML (before ++ after).
Proof.
  intros Hkey. unfold ESFileToHTML, ESFileToHTML_read.
  rewrite !for_each_app. cbn [for_each].
  apply String.eqb_neq in Hkey. rewrite Hkey. reflexivity.
Qed.

Lemma ESFileToHTML_skips_other_keyword_witness :
  ESFileToHTML
    ([] ++ color_record ["colour"; "Red"; "1"; "0"; "0"]
                        [Double.one; Double.zero; Double.zero] :: [])
  = ESFileToHTML ([] ++ []).
Proof. apply ESFileToHTML_skips_other_keyword. discriminate. Defined.

(** X16: a [color] record with at least 5 tokens whose three values
    [ESToHTML] encodes as [html] gives, between the lines of the records
    before and after it, one line: the quoted name (the second token), a
    space, [html] and the end of line. *)
Theorem ESFileToHTML_line (before after : list DataNode) (node : DataNode)
    (html : string) :
  Token node 0 = "color" ->
  (5 <= Size node)%nat ->
  ESToHTML node 2 = Some html ->
  ESFileToHTML (before ++ node :: after)
  = lines_before <- ESFileToHTML before ;;
    lines_after <- ESFileToHTML after ;;
    Some (lines_before
          ++ [Str (String quote_char EmptyString); Str (Token node 1);
              Str (String quote_char " "); Str html; Chr newline_char]
          ++ lines_after)%list.
Proof.
  intros Hkey Hsize Hhtml. unfold ESFileToHTML.
  rewrite ESFileToHTML_read_app.
  destruct (ESFileToHTML_read before []) as [rb |];
    [cbn [bind] | reflexivity].
  unfold ESFileToHTML_read at 1. cbn [for_each].
  apply Nat.leb_le in Hsize.
  rewrite Hkey, String.eqb_refl, Hsize, Hhtml. cbn [andb bind app].
  fold (ESFileToHTML_read after [(Token node 1, html)]).
  rewrite ESFileToHTML_read_from.
  destruct (ESFileToHTML_read after []) as [ra |];
    [cbn [bind] | reflexivity].
  rewrite !ESFileToHTML_print_app. reflexivity.
Qed.

Lemma ESFileToHTML_line_witness :
  ESFileToHTML
    [color_record ["color"; "Grey"; "0.1"; "0.6"; "0.4"; "1"]
       [Double.div (Double.of_int 1) (Double.of_int 10);
        Double.div (Double.of_int 3) (Double.of_int 5);
        Double.div (Double.of_int 2) (Double.of_int 5);
        Double.one]]
  = Some [Str (String quote_char EmptyString); Str "Grey";
          Str (String quote_char " "); Str "#199966"; Chr newline_char].
Proof.
  apply (ESFileToHTML_line [] []
           (color_record ["color"; "Grey"; "0.1"; "0.6"; "0.4"; "1"]
              [Double.div (Double.of_int 1) (Double.of_int 10);
               Double.div (Double.of_int 3) (Double.of_int 5);
               Double.div (Double.of_int 2) (Double.of_int 5);
               Double.one])
           "#199966").
  - reflexivity.
  - cbn. lia.
  - reflexivity.
Defined.

(** X17: a [color] record whose third token is [#] followed by at least
    six characters gives one line: [color], the quoted name with no space
    before it, then the three decoded fractions, a space before each, and
    the end of line. *)
Theorem HTMLFileToES_line (before after : list DataNode) (node : DataNode)
    (c1 c2 c3 c4 c5 c6 : ascii) (tail : string) :
  Token node 0 = "color" ->
  (3 <= Size node)%nat ->
  Token node 2
  = String "#" (String c1 (String c2 (String c3 (String c4
      (String c5 (String c6 tail)))))) ->
  exists lines_before lines_after,
    HTMLFileToES before = Some lines_before
    /\ HTMLFileToES after = Some lines_after
    /\ HTMLFileToES (before ++ node :: after)
       = Some (lines_before
               ++ [Str "color"; Chr quote_char; Str (Token node 1);
                   Chr quote_char;
                   Chr " "%char; Num (decode_pair c1 c2);
                   Chr " "%char; Num (decode_pair c3 c4);
                   Chr " "%char; Num (decode_pair c5 c6);
                   Chr newline_char]
               ++ lines_after)%list.
Proof.
  intros Hkey Hsize Hhex.
  destruct (HTMLFileToES_read_appends before) as [rb Hb].
  destruct (HTMLFileToES_read_appends after) as [ra Ha].
  exists (HTMLFileToES_print rb), (HTMLFileToES_print ra).
  unfold HTMLFileToES. rewrite Hb, Ha. cbn [bind app].
  split; [reflexivity |]. split; [reflexivity |].
  unfold HTMLFileToES_read in *. rewrite for_each_app, Hb.
  cbn [bind app for_each].
  apply Nat.leb_le in Hsize.
  rewrite Hkey, String.eqb_refl, Hsize, Hhex, HTMLToES_well_formed.
  cbn [andb bind]. rewrite Ha. cbn [bind].
  rewrite !HTMLFileToES_print_app, <- app_assoc. reflexivity.
Qed.

Lemma HTMLFileToES_line_witness :
  HTMLFileToES [color_record ["color"; "Grey"; "#199966"] []]
  = Some [Str "color"; Chr quote_char; Str "Grey"; Chr quote_char;
          Chr " "%char; Num (decode_pair "1" "9");
          Chr " "%char; Num (decode_pair "9" "9");
          Chr " "%char; Num (decode_pair "6" "6");
          Chr newline_char].
Proof.
  destruct (HTMLFileToES_line [] []
              (color_record ["color"; "Grey"; "#199966"] [])
              "1" "9" "9" "9" "6" "6" EmptyString)
    as (lb & la & Hb & Ha & Hline);
    [reflexivity | cbn; lia | reflexivity |].
  cbn in Hb, Ha. injection Hb as <-. injection Ha as <-.
  exact Hline.
Defined.

(** ** [main] *)

Section MainProperties.

Variable DataFile : string -> list DataNode.
Variable AsDataNodes : string -> list DataNode.

Lemma unrecognised_step (arg : string) (rest : list string) :
  recognised arg = false ->
  main_loop DataFile (arg :: rest) = main_loop DataFile rest.
Proof.
  unfold recognised. intros Hno.
  apply orb_false_elim in Hno. destruct Hno as [Hflags Hhash].
  cbn [main_loop]. rewrite Hflags.
  destruct arg as [| c arg]; cbn [string_at bind].
  - reflexivity.
  - rewrite Hhash. reflexivity.
Qed.

Lemma recognised_step (arg : string) (rest : list string) :
  recognised arg = true -> main_loop DataFile (arg :: rest) <> Some None.
Proof.
  unfold recognised. intros Hyes. cbn [main_loop].
  destruct ((arg =? "--es-to-hex")%string || (arg =? "--hex-to-es")%string).
  - destruct rest as [| path rest]; [discriminate |].
    destruct (if (arg =? "--es-to-hex")%string then _ else _);
      cbn [bind]; discriminate.
  - cbn [orb] in Hyes. destruct arg as [| c arg]; [discriminate |].
    cbn [string_at bind]. rewrite Hyes.
    destruct (HTMLToES (String c arg)); cbn [bind]; discriminate.
Qed.

Lemma loop_skips_unrecognised (pre rest : list string) :
  all_unrecognised pre = true ->
  main_loop DataFile (pre ++ rest) = main_loop DataFile rest.
Proof.
  unfold all_unrecognised.
  induction pre as [| arg pre IH]; intros Hpre; [reflexivity |].
  cbn [forallb] in Hpre. apply andb_prop in Hpre. destruct Hpre as [Harg Hpre].
  apply negb_true_iff in Harg.
  cbn [app]. rewrite unrecognised_step by exact Harg. apply IH, Hpre.
Qed.

Lemma loop_falls_through_iff (args : list string) :
  main_loop DataFile args = Some None <-> all_unrecognised args = true.
Proof.
  unfold all_unrecognised.
  induction args as [| arg args IH]; [cbn; tauto |].
  cbn [forallb]. destruct (recognised arg) eqn:Harg; cbn [negb andb].
  - split; [| discriminate].
    intros Hloop. exfalso. exact (recognised_step arg args Harg Hloop).
  - rewrite unrecognised_step by exact Harg. exact IH.
Qed.

Lemma loop_returns (args : list string) (printed : list output) (status : Z) :
  main_loop DataFile args = Some (Some (printed, status)) ->
  status = 0
  \/ (status = 1
      /\ printed = Str missing_argument_message :: PrintHelp
      /\ exists pre flag,
           args = (pre ++ [flag])%list
           /\ all_unrecognised pre = true /\ is_flag flag).
Proof.
  induction args as [| arg args IH]; [discriminate |].
  destruct (recognised arg) eqn:Harg.
  - cbn [main_loop]. unfold recognised in Harg.
    destruct ((arg =? "--es-to-hex")%string || (arg =? "--hex-to-es")%string)
      eqn:Hflag.
    + destruct args as [| path args].
      * intros Hret. injection Hret as <- <-. right.
        split; [reflexivity |]. split; [reflexivity |].
        exists [], arg. split; [reflexivity |]. split; [reflexivity |].
        apply orb_prop in Hflag. unfold is_flag.
        destruct Hflag as [H | H]; apply String.eqb_eq in H; auto.
      * destruct (if (arg =? "--es-to-hex")%string then _ else _);
          cbn [bind]; [| discriminate].
        intros Hret. injection Hret as <- <-. left. reflexivity.
    + cbn [orb] in Harg. destruct arg as [| c arg]; [discriminate |].
      cbn [string_at bind]. rewrite Harg.
      destruct (HTMLToES (String c arg)); cbn [bind]; [| discriminate].
      intros Hret. injection Hret as <- <-. left. reflexivity.
  - rewrite unrecognised_step by exact Harg. intros Hret.
    destruct (IH Hret) as [H0 | (H1 & Hout & pre & flag & Hargs & Hpre & Hf)];
      [left; exact H0 | right].
    split; [exact H1 |]. split; [exact Hout |].
    exists (arg :: pre), flag. subst args.
    split; [reflexivity |]. split; [| exact Hf].
    unfold all_unrecognised in *. cbn [forallb]. rewrite Harg, Hpre.
    reflexivity.
Qed.

(** X18: [main] ends with status 2 exactly when it is given one or two
    arguments, none of which is a conversion flag or begins with [#]; it
    has then printed nothing, the help text included. *)
Theorem main_status_2_iff (argv : list string) (printed : list output) :
  main DataFile AsDataNodes argv = Some (printed, 2)
  <-> printed = []
      /\ (2 <= List.length argv <= 3)%nat
      /\ all_unrecognised (tl argv) = true.
Proof.
  unfold main.
  destruct (List.length argv <? 2)%nat eqn:Hshort.
  { apply Nat.ltb_lt in Hshort. split; [discriminate | lia]. }
  apply Nat.ltb_ge in Hshort.
  destruct (main_loop DataFile (tl argv)) as [[[out status] |] |] eqn:Hloop;
    cbn [bind].
  - split.
    + intros Hret. injection Hret as -> ->.
      destruct (loop_returns _ _ _ Hloop) as [H | [H _]]; discriminate.
    + intros (_ & _ & Hall). apply loop_falls_through_iff in Hall.
      rewrite Hloop in Hall. discriminate.
  - destruct (3 <? List.length argv)%nat eqn:Hlong.
    + apply Nat.ltb_lt in Hlong. split; [| lia].
      cbv zeta.
      destruct (vector_at _ 0) as [node |]; cbn [bind]; [| discriminate].
      destruct (ESToHTML node 1); cbn [bind]; discriminate.
    + apply Nat.ltb_ge in Hlong. apply loop_falls_through_iff in Hloop.
      split.
      * intros Hret. injection Hret as <-. auto.
      * intros (-> & _). reflexivity.
  - split; [discriminate |].
    intros (_ & _ & Hall). apply loop_falls_through_iff in Hall.
    rewrite Hloop in Hall. discriminate.
Qed.

(** X19: [main] ends with status 1 in two cases only, and prints the help
    text in both: without any argument it prints the help text alone; when
    the first argument it acts on is a conversion flag in last position, it
    prints the missing-argument message followed by the help text. *)
Theorem main_status_1_iff (argv : list string) (printed : list output) :
  main DataFile AsDataNodes argv = Some (printed, 1)
  <-> ((List.length argv < 2)%nat /\ printed = PrintHelp)
      \/ ((2 <= List.length argv)%nat
          /\ printed = Str missing_argument_message :: PrintHelp
          /\ exists pre flag,
               tl argv = (pre ++ [flag])%list
               /\ all_unrecognised pre = true /\ is_flag flag).
Proof.
  unfold main.
  destruct (List.length argv <? 2)%nat eqn:Hshort.
  { apply Nat.ltb_lt in Hshort. split.
    - intros Hret. injection Hret as <-. left. auto.
    - intros [[_ ->] | [Hlen _]]; [reflexivity | lia]. }
  apply Nat.ltb_ge in Hshort.
  split.
  - intros Hret. right. split; [exact Hshort |].
    destruct (main_loop DataFile (tl argv)) as [[[out status] |] |] eqn:Hloop;
      cbn [bind] in Hret.
    + injection Hret as -> ->.
      destruct (loop_returns _ _ _ Hloop) as [H | (_ & Hout & Hshape)];
        [discriminate | auto].
    + destruct (3 <? List.length argv)%nat; [| discriminate].
      cbv zeta in Hret.
      destruct (vector_at _ 0) as [node |]; cbn [bind] in Hret;
        [| discriminate].
      destruct (ESToHTML node 1); cbn [bind] in Hret; discriminate.
    + discriminate.
  - intros [[Hlen _] | (_ & -> & pre & flag & Htl & Hpre & Hflag)]; [lia |].
    rewrite Htl.
    rewrite loop_skips_unrecognised by exact Hpre.
    destruct Hflag as [-> | ->]; reflexivity.
Qed.

(** X20: the first argument that begins with [#], when no conversion flag
    comes before it, decides what is done: if it has at least six characters
    after the [#], [main] prints the three decoded fractions, separated by
    single spaces and with no end of line, and ends with status 0; the
    arguments after it are ignored. *)
Theorem main_hex_argument (prog : string) (pre rest : list string)
    (c1 c2 c3 c4 c5 c6 : ascii) (tail : string) :
  all_unrecognised pre = true ->
  main DataFile AsDataNodes (prog :: pre
       ++ String "#" (String c1 (String c2 (String c3 (String c4
            (String c5 (String c6 tail)))))) :: rest)
  = Some ([Num (decode_pair c1 c2); Chr " "%char;
           Num (decode_pair c3 c4); Chr " "%char;
           Num (decode_pair c5 c6)], 0).
Proof.
  intros Hpre. unfold main.
  assert (Hlen : forall x, (List.length (prog :: pre ++ x :: rest) <? 2)%nat
                           = false).
  { intros x. apply Nat.ltb_ge. cbn [List.length].
    rewrite length_app. cbn [List.length]. lia. }
  rewrite Hlen. cbn [tl].
  rewrite loop_skips_unrecognised by exact Hpre.
  cbn [main_loop String.eqb Ascii.eqb Bool.eqb andb orb].
  cbn [string_at bind]. rewrite HTMLToES_well_formed. reflexivity.
Qed.

(** X21: an argument that begins with [#] but is shorter than 7 characters
    is not reported: [main] prints nothing and ends with status 0. *)
Theorem main_short_hex_argument (prog : string) (pre rest : list string)
    (code : string) :
  all_unrecognised pre = true ->
  (String.length code < 6)%nat ->
  main DataFile AsDataNodes (prog :: pre ++ String "#" code :: rest) = Some ([], 0).
Proof.
  intros Hpre Hcode. unfold main.
  assert (Hlen : (List.length (prog :: pre ++ String "#" code :: rest)
                  <? 2)%nat = false).
  { apply Nat.ltb_ge. cbn [List.length].
    rewrite length_app. cbn [List.length]. lia. }
  rewrite Hlen. cbn [tl].
  rewrite loop_skips_unrecognised by exact Hpre.
  cbn [main_loop String.eqb Ascii.eqb Bool.eqb andb orb].
  cbn [string_at bind].
  rewrite HTMLToES_short by (cbn [String.length]; lia).
  reflexivity.
Qed.

(** X22: a conversion flag followed by a path, when no argument before it
    is acted on, prints what the file conversion prints for the records of
    that file, with status 0; the arguments after the path are ignored. *)
Theorem main_file_conversion (prog path : string) (pre rest : list string) :
  all_unrecognised pre = true ->
  main DataFile AsDataNodes (prog :: pre ++ "--es-to-hex" :: path :: rest)
  = (printed <- ESFileToHTML (DataFile path) ;; Some (printed, 0))
  /\ main DataFile AsDataNodes (prog :: pre ++ "--hex-to-es" :: path :: rest)
     = (printed <- HTMLFileToES (DataFile path) ;; Some (printed, 0)).
Proof.
  intros Hpre. unfold main.
  assert (Hlen : forall x,
             (List.length (prog :: pre ++ x :: path :: rest) <? 2)%nat
             = false).
  { intros x. apply Nat.ltb_ge. cbn [List.length].
    rewrite length_app. cbn [List.length]. lia. }
  rewrite !Hlen. cbn [tl].
  rewrite !loop_skips_unrecognised by exact Hpre.
  cbn [main_loop].
  change ("--es-to-hex" =? "--es-to-hex")%string with true.
  change ("--hex-to-es" =? "--es-to-hex")%string with false.
  change ("--hex-to-es" =? "--hex-to-es")%string with true.
  cbn [orb].
  split.
  - destruct (ESFileToHTML (DataFile path)); reflexivity.
  - destruct (HTMLFileToES (DataFile path)); reflexivity.
Qed.

End MainProperties.

Lemma main_status_2_iff_witness :
  main no_file no_nodes ["prog"; "0.5"; "0.5"] = Some ([], 2).
Proof.
  apply (main_status_2_iff no_file no_nodes ["prog"; "0.5"; "0.5"] []).
  split; [reflexivity |]. split; [cbn; lia | reflexivity].
Defined.

Lemma main_hex_argument_witness :
  main no_file no_nodes ["prog"; "-v"; "#199966"; "--es-to-hex"]
  = Some ([Num (decode_pair "1" "9"); Chr " "%char;
           Num (decode_pair "9" "9"); Chr " "%char;
           Num (decode_pair "6" "6")], 0).
Proof.
  apply (main_hex_argument no_file no_nodes "prog" ["-v"] ["--es-to-hex"]
           "1" "9" "9" "9" "6" "6" EmptyString).
  reflexivity.
Defined.

Lemma main_short_hex_argument_witness :
  main no_file no_nodes ["prog"; "#12"; "more"] = Some ([], 0).
Proof.
  apply (main_short_hex_argument no_file no_nodes "prog" [] ["more"] "12").
  - reflexivity.
  - cbn. lia.
Defined.

Lemma main_file_conversion_witness :
  main (fun _ => [bad_html_record]) no_nodes
       ["prog"; "-v"; "--hex-to-es"; "colors.txt"; "ignored"]
  = Some ([Str "color"; Chr quote_char; Str "Bad"; Chr quote_char;
           Chr newline_char], 0).
Proof.
  destruct (main_file_conversion (fun _ => [bad_html_record]) no_nodes
              "prog" "colors.txt" ["-v"] ["ignored"]) as [_ Hhex];
    [reflexivity |].
  exact Hhex.
Defined.
